(** * XStatic-Angular: the build-configuration script [setup.py]

    The repository holds one program, a sixteen-line [setup.py]: it reads
    [README.txt], calls [find_packages()] and hands a keyword record to
    the packaging tool's [setup].  This development embeds that script as
    a computation in a small trace-and-exception monad over an explicit
    model of the working directory, of the locale's codec and of the
    source-control state, and proves what the specification says about
    it.  The runs modelled are those of a Python 3 interpreter in which
    the import on line 1 has succeeded: the tool's [setup] is given. *)

From Stdlib Require Import String Ascii List Bool Permutation NArith.
Import ListNotations.
Local Open Scope string_scope.
Local Open Scope list_scope.

(** ** The working directory *)

(** A directory entry is a regular file (with its read permission and its
    content, the bytes on disk) or a directory with named entries, in the
    order the operating system lists them. *)
#[warnings="-register-all"]
Inductive node : Type :=
| File (readable : bool) (content : string)
| Dir (entries : list (string * node)).

Definition listing : Type := list (string * node).

Fixpoint lookup (name : string) (es : listing) : option node :=
  match es with
  | [] => None
  | (n, c) :: rest => if String.eqb n name then Some c else lookup name rest
  end.

Definition is_file (c : node) : bool :=
  match c with File _ _ => true | Dir _ => false end.

(** ** Exceptions and keyword values *)

(** The exceptions a build can end with.  The first three are the ones
    Python's [open] raises for a path that does not exist, that may not
    be read, or that names a directory; the fourth is the one [read]
    raises for bytes that the locale's codec cannot decode; the next two
    are the packaging tool's, named as the specification names them;
    [ToolError] stands for any other failure inside the tool. *)
Inductive exn : Type :=
| FileNotFoundError (path : string)
| PermissionError (path : string)
| IsADirectoryError (path : string)
| UnicodeDecodeError
| VersionResolutionError
| DiscoveryError
| ToolError (msg : string).

(** The values that appear as keyword arguments of [setup(...)]. *)
Inductive value : Type :=
| VStr (s : string)
| VBool (b : bool)
| VList (l : list string).

(** The keyword arguments of a call, in the order they are written. *)
Definition kwargs : Type := list (string * value).

Fixpoint kw_get (key : string) (kw : kwargs) : option value :=
  match kw with
  | [] => None
  | (k, v) :: rest => if String.eqb k key then Some v else kw_get key rest
  end.

(** ** Observable events and the script monad *)

(** What a run does, in order: a file is opened, its text is read,
    package discovery is run, the packaging tool is entered. *)
Inductive event : Type :=
| EvOpen (path : string)
| EvRead (path : string)
| EvFindPackages
| EvSetup (kw : kwargs).

(** A computation yields the events it performed and either the
    exception that ended it or its value. *)
Definition M (A : Type) : Type := (list event * (exn + A))%type.

Definition ret {A : Type} (a : A) : M A := ([], inr a).

Definition raise {A : Type} (e : exn) : M A := ([], inl e).

Definition emit (ev : event) : M unit := ([ev], inr tt).

Definition bind {A B : Type} (m : M A) (k : A -> M B) : M B :=
  match m with
  | (tr, inl e) => (tr, inl e)
  | (tr, inr a) => let (tr', r) := k a in (tr ++ tr', r)
  end.

Declare Scope script_scope.
Delimit Scope script_scope with script.
Notation "x <- m ;; k" := (bind m (fun x => k))
  (at level 100, m at next level, right associativity) : script_scope.
Notation "m ;;; k" := (bind m (fun _ => k))
  (at level 100, right associativity) : script_scope.
Local Open Scope script_scope.

Definition lift {A : Type} (r : exn + A) : M A := ([], r).

Definition trace {A : Type} (m : M A) : list event := fst m.

Definition result {A : Type} (m : M A) : exn + A := snd m.

(** The packaging tool was entered with record [kw] at some point of the
    run. *)
Definition delegated {A : Type} (m : M A) (kw : kwargs) : Prop :=
  In (EvSetup kw) (trace m).

Definition is_setup (ev : event) : bool :=
  match ev with EvSetup _ => true | _ => false end.

(** ** Text, newlines and codecs *)

(** A Python [str] is represented by the string of its UTF-8 bytes; for
    ASCII text these are its characters.  A codec turns the bytes of a
    file into text, or fails. *)
Definition codec : Type := string -> option string.

Definition CR : ascii := "013"%char.

Definition LF : ascii := "010"%char.

(** Universal newlines, the default of a file opened in text mode: on
    input every CR LF and every lone CR becomes LF. *)
Fixpoint universal_newlines (s : string) : string :=
  match s with
  | EmptyString => EmptyString
  | String c rest =>
      if Ascii.eqb c CR then
        match rest with
        | String c' rest' =>
            if Ascii.eqb c' LF
            then String LF (universal_newlines rest')
            else String LF (universal_newlines rest)
        | EmptyString => String LF EmptyString
        end
      else String c (universal_newlines rest)
  end.

Fixpoint has_cr (s : string) : bool :=
  match s with
  | EmptyString => false
  | String c rest => Ascii.eqb c CR || has_cr rest
  end.

Definition in_range (lo hi : N) (c : ascii) : bool :=
  (lo <=? N_of_ascii c)%N && (N_of_ascii c <=? hi)%N.

(** The codec [ascii]: every byte must be below 128. *)
Fixpoint all_ascii (s : string) : bool :=
  match s with
  | EmptyString => true
  | String c rest => in_range 0 127 c && all_ascii rest
  end.

Definition ascii_decode : codec :=
  fun b => if all_ascii b then Some b else None.

(** The codec [utf-8], strict: the bytes must be well-formed UTF-8 (no
    overlong form, no surrogate, nothing above U+10FFFF); the text is
    then these bytes. *)
Definition continuation (c : ascii) : bool := in_range 128 191 c.

Definition three_byte_head (b0 b1 : ascii) : bool :=
  in_range 224 224 b0 && in_range 160 191 b1
  || in_range 225 236 b0 && continuation b1
  || in_range 237 237 b0 && in_range 128 159 b1
  || in_range 238 239 b0 && continuation b1.

Definition four_byte_head (b0 b1 : ascii) : bool :=
  in_range 240 240 b0 && in_range 144 191 b1
  || in_range 241 243 b0 && continuation b1
  || in_range 244 244 b0 && in_range 128 143 b1.

Fixpoint utf8_valid (s : string) : bool :=
  match s with
  | EmptyString => true
  | String b0 r0 =>
      if in_range 0 127 b0 then utf8_valid r0
      else
        match r0 with
        | EmptyString => false
        | String b1 r1 =>
            if in_range 194 223 b0 then continuation b1 && utf8_valid r1
            else
              match r1 with
              | EmptyString => false
              | String b2 r2 =>
                  if three_byte_head b0 b1
                  then continuation b2 && utf8_valid r2
                  else
                    match r2 with
                    | EmptyString => false
                    | String b3 r3 =>
                        four_byte_head b0 b1 && continuation b2
                        && continuation b3 && utf8_valid r3
                    end
              end
        end
  end.

Definition utf8_decode : codec :=
  fun b => if utf8_valid b then Some b else None.

(** The codec [latin-1]: every byte is the code point of that number, so
    a byte from 128 on becomes a two-byte UTF-8 sequence of the text. *)
Fixpoint latin1_text (s : string) : string :=
  match s with
  | EmptyString => EmptyString
  | String c rest =>
      if in_range 0 127 c then String c (latin1_text rest)
      else
        String (ascii_of_N (192 + N_of_ascii c / 64))
          (String (ascii_of_N (128 + N_of_ascii c mod 64))
             (latin1_text rest))
  end.

Definition latin1_decode : codec := fun b => Some (latin1_text b).

(** ** Python's [open(path)] and [f.read()] *)

(** A file object opened for reading in text mode: the path it was
    opened from and the bytes still to be read. *)
Record file_object : Type := { fo_path : string; fo_bytes : string }.

(** [open(path)] with a relative path, in working directory [cwd]. *)
Definition py_open (cwd : listing) (path : string) : M file_object :=
  emit (EvOpen path) ;;;
  match lookup path cwd with
  | None => raise (FileNotFoundError path)
  | Some (Dir _) => raise (IsADirectoryError path)
  | Some (File false _) => raise (PermissionError path)
  | Some (File true b) => ret {| fo_path := path; fo_bytes := b |}
  end.

(** [f.read()] with no size, on a file opened in text mode with the
    defaults: everything up to the end of the file is decoded with the
    locale's codec, which may fail, and its newlines are translated. *)
Definition py_read (decode : codec) (f : file_object) : M string :=
  emit (EvRead (fo_path f)) ;;;
  match decode (fo_bytes f) with
  | None => raise UnicodeDecodeError
  | Some t => ret (universal_newlines t)
  end.

(** ** Package discovery *)

(** Discovery is a function of the packaging library, which is not part
    of the repository; the script only calls it, with no argument.  The
    specification describes it as reading the local directory tree and
    returning the importable sub-directories under the project root.
    Here a directory is importable when its name holds no dot and it
    contains a regular file [__init__.py]; the search descends only into
    importable directories, and a sub-package is named by its dotted
    path. *)
Definition init_file : string := "__init__.py".

Definition has_dot (name : string) : bool :=
  existsb (Ascii.eqb ".") (list_ascii_of_string name).

Definition has_init (es : listing) : bool :=
  existsb (fun e => String.eqb (fst e) init_file && is_file (snd e)) es.

Definition looks_like_package (c : node) : bool :=
  match c with
  | File _ _ => false
  | Dir es => has_init es
  end.

Definition is_package (name : string) (c : node) : bool :=
  negb (has_dot name) && looks_like_package c.

(** The packages found directly in a directory. *)
Fixpoint level (prefix : string) (es : listing) : list string :=
  match es with
  | [] => []
  | (name, c) :: rest =>
      if is_package name c
      then (prefix ++ name)%string :: level prefix rest
      else level prefix rest
  end.

(** Modelled from the spec: the directory walk of the packaging
    library's discovery, which is not part of the repository.  It yields
    the importable sub-directories of a directory, then those below each
    of them, in listing order. *)
Fixpoint walk (prefix : string) (c : node) {struct c} : list string :=
  match c with
  | File _ _ => []
  | Dir es =>
      level prefix es ++
      (fix below (l : listing) : list string :=
         match l with
         | [] => []
         | (name, d) :: rest =>
             (if is_package name d
              then walk (prefix ++ name ++ ".")%string d
              else []) ++ below rest
         end) es
  end.

(** The part of the walk that is below the entries of a directory. *)
Fixpoint below (prefix : string) (l : listing) : list string :=
  match l with
  | [] => []
  | (name, d) :: rest =>
      (if is_package name d
       then walk (prefix ++ name ++ ".")%string d
       else []) ++ below prefix rest
  end.

(** Modelled from the spec: [find_packages()] of the packaging library,
    which is not part of the repository: the importable sub-directories
    under the project root, found by the walk from the working
    directory. *)
Definition find_packages (cwd : listing) : list string :=
  walk "" (Dir cwd).

(** Two directory trees are the same tree when they differ only in the
    order in which directories list their entries. *)
Inductive same_tree : node -> node -> Prop :=
| same_file : forall r s, same_tree (File r s) (File r s)
| same_dir : forall es es', same_listing es es' -> same_tree (Dir es) (Dir es')
with same_listing : listing -> listing -> Prop :=
| same_nil : same_listing [] []
| same_skip : forall n c c' es es',
    same_tree c c' -> same_listing es es' ->
    same_listing ((n, c) :: es) ((n, c') :: es')
| same_swap : forall x y es,
    same_listing (x :: y :: es) (y :: x :: es)
| same_trans : forall es1 es2 es3,
    same_listing es1 es2 -> same_listing es2 es3 -> same_listing es1 es3.

Scheme same_tree_mut := Induction for same_tree Sort Prop
  with same_listing_mut := Induction for same_listing Sort Prop.
Combined Scheme same_tree_listing_ind from same_tree_mut, same_listing_mut.

Fixpoint same_tree_refl (c : node) : same_tree c c :=
  match c with
  | File r s => same_file r s
  | Dir es =>
      same_dir es es
        ((fix all (l : listing) : same_listing l l :=
            match l with
            | [] => same_nil
            | (n, d) :: rest =>
                same_skip n d d rest rest (same_tree_refl d) (all rest)
            end) es)
  end.

(** ** The build environment *)

(** What a build reads: the working directory of the interpreter,
    against which the relative path [README.txt] is resolved and from
    which discovery starts (the project root when the build is run from
    there), and the version that source control resolves, if any. *)
Record World : Type := {
  cwd : listing;
  scm_version : option string
}.

Definition readme : string := "README.txt".

(** The description file is absent. *)
Definition absent (w : World) : Prop := lookup readme (cwd w) = None.

(** The text that reading an entry as a file delivers, if any: the
    entry must be a regular file that may be read and whose bytes the
    codec decodes. *)
Definition read_text (decode : codec) (c : node) : option string :=
  match c with
  | File true b =>
      match decode b with
      | Some t => Some (universal_newlines t)
      | None => None
      end
  | _ => None
  end.

(** The description file is there and can be read, with text [s]. *)
Definition readable_with (decode : codec) (w : World) (s : string) : Prop :=
  exists c, lookup readme (cwd w) = Some c /\ read_text decode c = Some s.

(** The description file is there but cannot be read. *)
Definition cannot_be_read (decode : codec) (w : World) : Prop :=
  exists c, lookup readme (cwd w) = Some c /\ read_text decode c = None.

(** ** The script *)

Section Script.

(** The codec of the locale is the interpreter's, and the packaging tool
    is not the script's: its entry point is any function from the build
    environment and the keyword record to a failure or an artifact. *)
Variable decode : codec.
Variable Artifact : Type.
Variable setup : World -> kwargs -> exn + Artifact.

(** The call [setup(...)]: the tool is entered, and its outcome is the
    outcome of the script. *)
Definition call_setup (w : World) (kw : kwargs) : M Artifact :=
  emit (EvSetup kw) ;;;
  lift (setup w kw).

(** The call [find_packages()] of the script. *)
Definition call_find_packages (w : World) : M (list string) :=
  emit EvFindPackages ;;;
  ret (find_packages (cwd w)).

(** The keyword arguments of the script's call of [setup], lines 7-17
    of [setup.py]. *)
Definition setup_keywords (long_description : string)
    (packages : list string) : kwargs :=
  [ ("name", VStr "XStatic-Angular");
    ("summary", VStr "Angular 1.4.10 (XStatic packaging standard)");
    ("description", VStr long_description);
    ("maintainer", VStr "Rob Cresswell");
    ("maintainer_email", VStr "robert.cresswell@outlook.com");
    ("use_scm_version", VBool true);
    ("setup_requires", VList ["setuptools_scm"; "wheel"]);
    ("packages", VList packages);
    ("include_package_data", VBool true) ].

(** [long_description = open('README.txt').read()] *)
Definition read_description (w : World) : M string :=
  f <- py_open (cwd w) readme ;;
  py_read decode f.

(** The script: read the description, then call [setup] with the
    keyword arguments evaluated in the order they are written. *)
Definition script (w : World) : M Artifact :=
  long_description <- read_description w ;;
  packages <- call_find_packages w ;;
  call_setup w (setup_keywords long_description packages).

End Script.

Arguments call_setup {Artifact}.
Arguments script decode {Artifact}.

(** ** The packaging tool, as the specification describes it *)

Section PackagingTool.

(** What the tool does once the version is known and the package list
    is accepted is its own business. *)
Variable Artifact : Type.
Variable build_distribution : World -> string -> kwargs -> exn + Artifact.

(** Modelled from the spec: the version resolution of the packaging
    tool, which is not part of the repository.  By the specification the version is
    resolved from source control when the record asks for it and the
    build fails when it cannot be resolved; the build fails with a
    discovery error when no sub-packages are found; every other
    failure of the tool is passed on unchanged.  The two checks are
    made in the order in which the specification lists them. *)
Definition resolve_version (w : World) (kw : kwargs) : exn + string :=
  match kw_get "use_scm_version" kw with
  | Some (VBool true) =>
      match scm_version w with
      | Some v => inr v
      | None => inl VersionResolutionError
      end
  | _ =>
      match kw_get "version" kw with
      | Some (VStr v) => inr v
      | _ => inr "0.0.0"
      end
  end.

(** Modelled from the spec: the tool's check of the package list,
    not part of the repository; the build fails with a discovery error
    when no sub-packages are found. *)
Definition check_packages (kw : kwargs) : exn + unit :=
  match kw_get "packages" kw with
  | Some (VList (_ :: _)) => inr tt
  | _ => inl DiscoveryError
  end.

(** Modelled from the spec: the tool's entry point, not part of the
    repository: version resolution, then the check of the package
    list, then the rest of the build. *)
Definition packaging_tool (w : World) (kw : kwargs) : exn + Artifact :=
  match resolve_version w kw with
  | inl e => inl e
  | inr version =>
      match check_packages kw with
      | inl e => inl e
      | inr _ => build_distribution w version kw
      end
  end.

End PackagingTool.

Arguments packaging_tool {Artifact}.

(** ** Sample tools and projects *)

(** A tool pipeline that always succeeds and delivers the version it was
    given; a tool that accepts every record; a tool that always fails. *)
Definition version_stamp (_ : World) (v : string) (_ : kwargs)
  : exn + string := inr v.

Definition accept_all (_ : World) (kw : kwargs) : exn + kwargs := inr kw.

Definition disk_full (_ : World) (_ : kwargs) : exn + unit :=
  inl (ToolError "No space left on device").

Definition sample_package : node :=
  Dir [ ("__init__.py", File true "");
        ("data", Dir [ ("angular.js", File true "/* AngularJS */") ]) ].

Definition sample_readme : string := "XStatic-Angular
---------------

Angular JavaScript library packaged for setuptools (easy_install) / pip.
".

Definition sample_cwd : listing :=
  [ ("README.txt", File true sample_readme);
    ("setup.py", File true "");
    ("xstatic", Dir [ ("__init__.py", File true "");
                      ("pkg", Dir [ ("__init__.py", File true "");
                                    ("angular", sample_package) ]) ]) ].

Definition sample_world : World :=
  {| cwd := sample_cwd; scm_version := Some "1.4.10.1" |}.

(** The sample project listed by the operating system in another order. *)
Definition sample_cwd_reordered : listing :=
  [ ("setup.py", File true "");
    ("README.txt", File true sample_readme);
    ("xstatic", Dir [ ("pkg", Dir [ ("angular", sample_package);
                                    ("__init__.py", File true "") ]);
                      ("__init__.py", File true "") ]) ].

(** The sample project in a checkout without tags. *)
Definition untagged_world : World :=
  {| cwd := sample_cwd; scm_version := None |}.

(** The sample description as an editor with CR LF line ends saves it,
    and a project that holds it. *)
Definition crlf_readme : string :=
  "XStatic-Angular" ++ String CR (String LF
    ("---------------" ++ String CR (String LF ""))).

Definition crlf_world : World :=
  {| cwd := [ ("README.txt", File true crlf_readme);
              ("xstatic", Dir [ ("__init__.py", File true "") ]) ];
     scm_version := Some "1.4.10.1" |}.

(** The same description with LF line ends, in a project without tags. *)
Definition lf_readme : string := "XStatic-Angular
---------------
".

Definition lf_world : World :=
  {| cwd := [ ("setup.py", File true "");
              ("README.txt", File true lf_readme);
              ("xstatic", Dir [ ("__init__.py", File true "") ]) ];
     scm_version := None |}.

(** A project whose description file is the single byte 255, which no
    codec of those above but [latin-1] decodes. *)
Definition undecodable_world : World :=
  {| cwd := [ ("README.txt", File true (String "255" ""));
              ("xstatic", Dir [ ("__init__.py", File true "") ]) ];
     scm_version := Some "1.4.10.1" |}.

(** A project whose description file may not be read. *)
Definition locked_world : World :=
  {| cwd := [ ("README.txt", File false "XStatic-Angular");
              ("xstatic", Dir [ ("__init__.py", File true "") ]) ];
     scm_version := Some "1.4.10.1" |}.

(** A project without description file, in a checkout without tags. *)
Definition undescribed_untagged_world : World :=
  {| cwd := [ ("setup.py", File true "");
              ("xstatic", Dir [ ("__init__.py", File true "") ]) ];
     scm_version := None |}.

(** An empty working directory, in a tagged checkout. *)
Definition empty_world : World :=
  {| cwd := []; scm_version := Some "1.4.10.1" |}.

(** A described and tagged project that holds no package. *)
Definition packageless_world : World :=
  {| cwd := [ ("README.txt", File true "XStatic-Angular");
              ("setup.py", File true "");
              ("docs", Dir [ ("index.rst", File true "") ]) ];
     scm_version := Some "1.4.10.1" |}.

(** The sample project as another listing order shows it, in a checkout
    without tags. *)
Definition reordered_untagged_world : World :=
  {| cwd := sample_cwd_reordered; scm_version := None |}.

(** Two lookups agree: both miss, or both hit the same tree. *)
Definition same_entry (a b : option node) : Prop :=
  match a, b with
  | Some c, Some c' => same_tree c c'
  | None, None => True
  | _, _ => False
  end.

(** A directory lists each name once. *)
Definition unique_names (es : listing) : Prop := NoDup (map fst es).

(** ** How a run unfolds *)

Lemma universal_newlines_without_cr (t : string) :
  has_cr t = false -> universal_newlines t = t.
Proof.
  induction t as [| c rest IH]; simpl; [reflexivity |].
  destruct (Ascii.eqb c CR); simpl; [discriminate |].
  intros H. now rewrite IH.
Qed.

Section Runs.

Variable decode : codec.
Variable Artifact : Type.
Variable setup : World -> kwargs -> exn + Artifact.

(** The script after a read that failed: the same events, the same
    error, nothing more. *)
Lemma script_after_failed_read (w : World) (tr : list event) (e : exn) :
  read_description decode w = (tr, inl e) ->
  script decode setup w = (tr, inl e).
Proof. intros H. unfold script. now rewrite H. Qed.

(** The script after a read that delivered [s]: discovery, then the
    tool, whose outcome is the script's. *)
Lemma script_after_read (w : World) (tr : list event) (s : string) :
  read_description decode w = (tr, inr s) ->
  script decode setup w =
    (tr ++ [EvFindPackages;
            EvSetup (setup_keywords s (find_packages (cwd w)))],
     setup w (setup_keywords s (find_packages (cwd w)))).
Proof. intros H. unfold script. now rewrite H. Qed.

(** The three ways the read can go. *)
Lemma read_description_cases (w : World) :
  (exists s, readable_with decode w s /\
             read_description decode w
               = ([EvOpen readme; EvRead readme], inr s)) \/
  (exists e, (forall s, ~ readable_with decode w s) /\
             (read_description decode w = ([EvOpen readme], inl e) \/
              read_description decode w
                = ([EvOpen readme; EvRead readme], inl e))).
Proof.
  unfold readable_with, read_description, py_open, py_read.
  destruct (lookup readme (cwd w)) as [[[|] b | es] |] eqn:L; simpl.
  - destruct (decode b) as [t |] eqn:D.
    + left. exists (universal_newlines t). split; [| reflexivity].
      eexists. split; [reflexivity |]. simpl. now rewrite D.
    + right. exists UnicodeDecodeError. split; [| now right].
      intros s [c [E R]]. injection E as <-. simpl in R.
      rewrite D in R. discriminate.
  - right. eexists. split; [| now left].
    intros s [c [E R]]. injection E as <-. discriminate.
  - right. eexists. split; [| now left].
    intros s [c [E R]]. injection E as <-. discriminate.
  - right. eexists. split; [| now left].
    intros s [c [E R]]. discriminate.
Qed.

Lemma readable_with_unique (w : World) (s s' : string) :
  readable_with decode w s -> readable_with decode w s' -> s = s'.
Proof. intros [c [L R]] [c' [L' R']]. congruence. Qed.

Lemma read_of_readable (w : World) (s : string) :
  readable_with decode w s ->
  read_description decode w = ([EvOpen readme; EvRead readme], inr s).
Proof.
  intros R.
  destruct (read_description_cases w) as [[s' [R' E]] | [e [N _]]].
  - now rewrite (readable_with_unique w s s' R R').
  - elim (N s R).
Qed.

(** A run with a readable description: four events, the last of which
    enters the tool, then the tool's outcome. *)
Lemma run_readable (w : World) (s : string) :
  readable_with decode w s ->
  script decode setup w =
    ([EvOpen readme; EvRead readme; EvFindPackages;
      EvSetup (setup_keywords s (find_packages (cwd w)))],
     setup w (setup_keywords s (find_packages (cwd w)))).
Proof.
  intros R. now rewrite (script_after_read w _ s (read_of_readable w s R)).
Qed.

(** A run without a readable description: the failed read, nothing
    else. *)
Lemma run_unreadable (w : World) :
  (forall s, ~ readable_with decode w s) ->
  exists e,
    result (read_description decode w) = inl e /\
    script decode setup w = (trace (read_description decode w), inl e) /\
    (trace (read_description decode w) = [EvOpen readme] \/
     trace (read_description decode w) = [EvOpen readme; EvRead readme]).
Proof.
  intros N.
  destruct (read_description_cases w) as [[s [R _]] | [e [_ [E | E]]]].
  - elim (N s R).
  - exists e. rewrite (script_after_failed_read w _ e E), E. auto.
  - exists e. rewrite (script_after_failed_read w _ e E), E. auto.
Qed.

Lemma readable_or_not (w : World) :
  (exists s, readable_with decode w s) \/
  (forall s, ~ readable_with decode w s).
Proof.
  destruct (read_description_cases w) as [[s [R _]] | [e [N _]]].
  - left. now exists s.
  - now right.
Qed.

Lemma delegated_inv (w : World) (kw : kwargs) :
  delegated (script decode setup w) kw ->
  exists s, readable_with decode w s /\
            kw = setup_keywords s (find_packages (cwd w)).
Proof.
  unfold delegated. intros H.
  destruct (readable_or_not w) as [[s R] | N].
  - exists s. split; [assumption |].
    rewrite (run_readable w s R) in H. simpl in H.
    destruct H as [H | [H | [H | [H | []]]]]; try discriminate.
    now injection H as <-.
  - destruct (run_unreadable w N) as [e [_ [Run T]]].
    rewrite Run in H. simpl in H.
    destruct T as [T | T]; rewrite T in H; simpl in H.
    + destruct H as [H | []]. discriminate.
    + destruct H as [H | [H | []]]; discriminate.
Qed.

Lemma delegated_readable (w : World) (s : string) :
  readable_with decode w s ->
  delegated (script decode setup w)
    (setup_keywords s (find_packages (cwd w))).
Proof.
  intros R. unfold delegated. rewrite (run_readable w s R).
  simpl. auto.
Qed.

End Runs.

Arguments run_readable decode {Artifact}.
Arguments run_unreadable decode {Artifact}.
Arguments delegated_inv decode {Artifact}.
Arguments delegated_readable decode {Artifact}.
Arguments script_after_failed_read decode {Artifact}.

Lemma read_description_fails (decode : codec) (w : World) (e : exn) :
  result (read_description decode w) = inl e ->
  forall s, ~ readable_with decode w s.
Proof.
  intros H s R. rewrite (read_of_readable decode w s R) in H. discriminate.
Qed.

Lemma not_readable_when_missing (decode : codec) (w : World) :
  absent w \/ cannot_be_read decode w ->
  forall s, ~ readable_with decode w s.
Proof.
  unfold absent, cannot_be_read, readable_with.
  intros [H | [c [H N]]] s [c' [E R]]; rewrite E in H; [discriminate |].
  injection H as <-. congruence.
Qed.

(** Ways to see that a sample description is readable. *)
Ltac readable := eexists; split; reflexivity.

(** ** The description file *)

(** C1, as stated, fails: a description file saved with CR LF line ends
    exists and is read without error, yet the description handed to the
    packaging tool has LF line ends; it is not the file's content
    character for character. *)
Lemma description_verbatim_counterexample :
  lookup readme (cwd crlf_world) = Some (File true crlf_readme) /\
  utf8_decode crlf_readme = Some crlf_readme /\
  exists kw,
    delegated (script utf8_decode accept_all crlf_world) kw /\
    kw_get "description" kw = Some (VStr "XStatic-Angular
---------------
") /\
    kw_get "description" kw <> Some (VStr crlf_readme).
Proof.
  split; [reflexivity |]. split; [reflexivity |].
  eexists. split; [| split].
  - unfold delegated. simpl. do 3 right. left. reflexivity.
  - reflexivity.
  - discriminate.
Qed.

(** C1, amended.  When [README.txt], looked up in the working directory,
    is a file that may be read and whose bytes [b] the locale's codec
    decodes to [t], the packaging tool is entered, and every record it
    is entered with has as its description the text that the read of
    the whole file delivers: [t] with every CR LF and every lone CR
    replaced by LF.  When [t] holds no CR the description is [t],
    character for character. *)
Theorem description_is_file_text {Artifact : Type}
    (decode : codec) (setup : World -> kwargs -> exn + Artifact)
    (w : World) (b t : string) :
  lookup readme (cwd w) = Some (File true b) ->
  decode b = Some t ->
  (exists kw, delegated (script decode setup w) kw) /\
  (forall kw, delegated (script decode setup w) kw ->
     kw_get "description" kw = Some (VStr (universal_newlines t)) /\
     (has_cr t = false -> kw_get "description" kw = Some (VStr t))).
Proof.
  intros L D.
  assert (R : readable_with decode w (universal_newlines t)).
  { exists (File true b). split; [exact L |]. simpl. now rewrite D. }
  split.
  - eexists. apply (delegated_readable decode setup w _ R).
  - intros kw Dk. apply delegated_inv in Dk as [s' [R' ->]].
    rewrite (readable_with_unique decode w s' _ R' R).
    split; [reflexivity |].
    intros H. now rewrite (universal_newlines_without_cr t H).
Qed.

Lemma description_is_file_text_witness :
  (forall kw,
     delegated (script utf8_decode (packaging_tool version_stamp)
                  sample_world) kw ->
     kw_get "description" kw = Some (VStr sample_readme)) /\
  (exists kw,
     delegated (script ascii_decode accept_all crlf_world) kw /\
     kw_get "description" kw = Some (VStr lf_readme)).
Proof.
  split.
  - destruct (description_is_file_text utf8_decode
                (packaging_tool version_stamp) sample_world
                sample_readme sample_readme) as [_ H].
    + reflexivity.
    + reflexivity.
    + intros kw D. destruct (H kw D) as [_ H']. apply H'. reflexivity.
  - destruct (description_is_file_text ascii_decode accept_all crlf_world
                crlf_readme crlf_readme) as [[kw D] H].
    + reflexivity.
    + reflexivity.
    + exists kw. split; [exact D |]. now destruct (H kw D).
Defined.

(** C2, as stated, fails: a description file that exists but may not be
    read ends the build with a permission error, not with a
    file-not-found error. *)
Lemma missing_file_error_counterexample :
  (absent locked_world \/ cannot_be_read utf8_decode locked_world) /\
  script utf8_decode accept_all locked_world
    = ([EvOpen "README.txt"], inl (PermissionError "README.txt")) /\
  result (script utf8_decode accept_all locked_world)
    <> inl (FileNotFoundError "README.txt").
Proof.
  split; [| split].
  - right. eexists. split; reflexivity.
  - reflexivity.
  - discriminate.
Qed.

(** C2, amended.  When [README.txt] is absent the build fails with the
    file-not-found error; when it exists but cannot be read the build
    fails with the error that the open or the read raises, which is not
    the file-not-found error.  Either way the failure is fatal, the
    packaging tool is never entered, and it is the same, events and
    error, for every tool and every state that agrees on the
    description file. *)
Theorem unreadable_description_fails {Artifact Artifact' : Type}
    (decode : codec)
    (setup : World -> kwargs -> exn + Artifact)
    (setup' : World -> kwargs -> exn + Artifact')
    (w w' : World) :
  lookup readme (cwd w) = lookup readme (cwd w') ->
  absent w \/ cannot_be_read decode w ->
  exists tr e,
    script decode setup w = (tr, inl e) /\
    script decode setup' w' = (tr, inl e) /\
    (forall ev, In ev tr -> is_setup ev = false) /\
    (absent w -> e = FileNotFoundError readme) /\
    (cannot_be_read decode w -> e <> FileNotFoundError readme).
Proof.
  intros E H.
  pose proof (not_readable_when_missing decode w H) as N.
  assert (Same : read_description decode w' = read_description decode w).
  { unfold read_description, py_open. now rewrite E. }
  destruct (run_unreadable decode setup w N) as [e [Res [Run T]]].
  exists (trace (read_description decode w)), e.
  split; [exact Run |]. split; [| split; [| split]].
  - apply script_after_failed_read. rewrite Same.
    destruct (read_description decode w) as [tr r]. simpl in *. now subst r.
  - intros ev I.
    destruct T as [T | T]; rewrite T in I; simpl in I;
      repeat (destruct I as [<- | I]; [reflexivity |]); elim I.
  - unfold absent. intros A. revert Res.
    unfold read_description, py_open. rewrite A. simpl. congruence.
  - intros [c [L R]]. revert Res.
    unfold read_description, py_open, py_read. rewrite L.
    destruct c as [[|] b | es]; simpl in *; try congruence.
    destruct (decode b); simpl; [discriminate | congruence].
Qed.

Lemma unreadable_description_fails_witness :
  (exists tr,
     script utf8_decode accept_all undescribed_untagged_world
       = (tr, inl (FileNotFoundError readme)) /\
     script utf8_decode disk_full empty_world
       = (tr, inl (FileNotFoundError readme))) /\
  (exists tr e,
     script utf8_decode accept_all undecodable_world = (tr, inl e) /\
     e <> FileNotFoundError readme).
Proof.
  split.
  - destruct (unreadable_description_fails utf8_decode accept_all disk_full
                undescribed_untagged_world empty_world)
      as [tr [e [H1 [H2 [_ [H3 _]]]]]].
    + reflexivity.
    + left. reflexivity.
    + exists tr. rewrite <- (H3 eq_refl). split; [exact H1 | exact H2].
  - destruct (unreadable_description_fails utf8_decode accept_all disk_full
                undecodable_world undecodable_world)
      as [tr [e [H1 [_ [_ [_ H4]]]]]].
    + reflexivity.
    + right. eexists. split; reflexivity.
    + exists tr, e. split; [exact H1 |]. apply H4.
      eexists. split; reflexivity.
Defined.

(** C9.  When reading the description raises an error, in the open or
    in the read, the run of the script is that failed read and nothing
    else: the build ends with that error, its only events are the open
    and the read of [README.txt], and the packaging tool is never
    entered. *)
Theorem failed_read_never_delegates {Artifact : Type}
    (decode : codec) (setup : World -> kwargs -> exn + Artifact)
    (w : World) (e : exn) :
  result (read_description decode w) = inl e ->
  script decode setup w = (trace (read_description decode w), inl e) /\
  (forall kw, ~ delegated (script decode setup w) kw) /\
  (forall ev, In ev (trace (script decode setup w)) ->
              ev = EvOpen readme \/ ev = EvRead readme).
Proof.
  intros H.
  pose proof (read_description_fails decode w e H) as N.
  destruct (run_unreadable decode setup w N) as [e' [Res [Run T]]].
  assert (e' = e) by congruence. subst e'.
  split; [exact Run |].
  assert (Ev : forall ev, In ev (trace (script decode setup w)) ->
                          ev = EvOpen readme \/ ev = EvRead readme).
  { intros ev I. rewrite Run in I. simpl in I.
    destruct T as [T | T]; rewrite T in I; simpl in I;
      intuition auto. }
  split; [| exact Ev].
  intros kw D. destruct (Ev _ D); discriminate.
Qed.

Lemma failed_read_never_delegates_witness :
  script utf8_decode accept_all undecodable_world
    = ([EvOpen readme; EvRead readme], inl UnicodeDecodeError) /\
  (forall kw, ~ delegated (script utf8_decode accept_all undecodable_world)
                 kw) /\
  script utf8_decode accept_all locked_world
    = ([EvOpen readme], inl (PermissionError readme)).
Proof.
  destruct (failed_read_never_delegates utf8_decode accept_all
              undecodable_world UnicodeDecodeError) as [H1 [H2 _]];
    [reflexivity |].
  destruct (failed_read_never_delegates utf8_decode accept_all
              locked_world (PermissionError readme)) as [H3 _];
    [reflexivity |].
  split; [exact H1 | split; [exact H2 | exact H3]].
Defined.

(** C7.  Wherever the packaging tool is entered in a run, the read of
    the description file has completed before: the events that precede
    the entry contain the open and the read of [README.txt], and no
    earlier entry of the tool. *)
Theorem read_precedes_delegation {Artifact : Type}
    (decode : codec) (setup : World -> kwargs -> exn + Artifact)
    (w : World) (pre post : list event) (kw : kwargs) :
  trace (script decode setup w) = pre ++ EvSetup kw :: post ->
  In (EvRead readme) pre /\
  In (EvOpen readme) pre /\
  (forall ev, In ev pre -> is_setup ev = false).
Proof.
  intros H.
  destruct (readable_or_not decode w) as [[s R] | N].
  - rewrite (run_readable decode setup w s R) in H. simpl in H.
    destruct pre as [| e1 [| e2 [| e3 [| e4 pre]]]]; simpl in H;
      try discriminate.
    + injection H as H1 H2 H3 H4 H5. subst e1 e2 e3.
      simpl. repeat split; auto.
      intros ev [<- | [<- | [<- | []]]]; reflexivity.
    + injection H as _ _ _ _ H. destruct pre; discriminate.
  - destruct (run_unreadable decode setup w N) as [e [_ [Run T]]].
    rewrite Run in H. simpl in H.
    destruct T as [T | T]; rewrite T in H.
    + destruct pre as [| e1 pre]; simpl in H; [discriminate |].
      injection H as _ H. destruct pre; discriminate.
    + destruct pre as [| e1 [| e2 pre]]; simpl in H; try discriminate.
      injection H as _ _ H. destruct pre; discriminate.
Qed.

Lemma read_precedes_delegation_witness :
  In (EvRead readme) [EvOpen readme; EvRead readme; EvFindPackages].
Proof.
  apply (read_precedes_delegation utf8_decode
           (packaging_tool version_stamp) sample_world
           [EvOpen readme; EvRead readme; EvFindPackages] []
           (setup_keywords sample_readme
              ["xstatic"; "xstatic.pkg"; "xstatic.pkg.angular"])).
  reflexivity.
Defined.

(** ** The metadata record *)

(** C4.  In any two builds that reach the packaging tool, whatever the
    tools, the working directories and the resolved versions, the name
    in the record is the literal ['XStatic-Angular'], hence the same in
    both. *)
Theorem name_is_constant {Artifact1 Artifact2 : Type}
    (decode1 decode2 : codec)
    (setup1 : World -> kwargs -> exn + Artifact1)
    (setup2 : World -> kwargs -> exn + Artifact2)
    (w1 w2 : World) (kw1 kw2 : kwargs) :
  delegated (script decode1 setup1 w1) kw1 ->
  delegated (script decode2 setup2 w2) kw2 ->
  kw_get "name" kw1 = Some (VStr "XStatic-Angular") /\
  kw_get "name" kw2 = kw_get "name" kw1.
Proof.
  intros D1 D2.
  apply delegated_inv in D1 as [s1 [_ ->]].
  apply delegated_inv in D2 as [s2 [_ ->]].
  split; reflexivity.
Qed.

Lemma name_is_constant_witness :
  kw_get "name" (setup_keywords "XStatic-Angular"
                   (find_packages (cwd packageless_world)))
    = Some (VStr "XStatic-Angular").
Proof.
  apply (name_is_constant utf8_decode ascii_decode
           (packaging_tool version_stamp) disk_full
           packageless_world untagged_world
           (setup_keywords "XStatic-Angular"
              (find_packages (cwd packageless_world)))
           (setup_keywords sample_readme
              (find_packages (cwd untagged_world)))).
  - apply delegated_readable. readable.
  - apply delegated_readable. readable.
Defined.

(** C10.  In every build that reaches the packaging tool the summary,
    the maintainer's name and the maintainer's email of the record are
    the three literals of the script, whatever the tool, the working
    directory and the resolved version. *)
Theorem contact_fields_are_constant {Artifact : Type}
    (decode : codec) (setup : World -> kwargs -> exn + Artifact)
    (w : World) (kw : kwargs) :
  delegated (script decode setup w) kw ->
  kw_get "summary" kw
    = Some (VStr "Angular 1.4.10 (XStatic packaging standard)") /\
  kw_get "maintainer" kw = Some (VStr "Rob Cresswell") /\
  kw_get "maintainer_email" kw = Some (VStr "robert.cresswell@outlook.com").
Proof.
  intros D. apply delegated_inv in D as [s [_ ->]].
  repeat split.
Qed.

Lemma contact_fields_are_constant_witness :
  kw_get "maintainer"
    (setup_keywords "XStatic-Angular" (find_packages (cwd packageless_world)))
    = Some (VStr "Rob Cresswell").
Proof.
  apply (contact_fields_are_constant utf8_decode disk_full
           packageless_world).
  apply delegated_readable. readable.
Defined.

(** C5.  A record handed to the packaging tool carries, in this order,
    a name, a summary, the description read from [README.txt], the
    maintainer's name and email, the request to resolve the version
    from source control (and no version of its own), the build-step
    dependencies [['setuptools_scm'; 'wheel']], the list of discovered
    sub-packages, and the flag that includes data files, set to
    true. *)
Theorem record_is_fully_populated {Artifact : Type}
    (decode : codec) (setup : World -> kwargs -> exn + Artifact)
    (w : World) (kw : kwargs) :
  delegated (script decode setup w) kw ->
  exists s,
    readable_with decode w s /\
    map fst kw =
      ["name"; "summary"; "description"; "maintainer"; "maintainer_email";
       "use_scm_version"; "setup_requires"; "packages";
       "include_package_data"] /\
    kw_get "name" kw = Some (VStr "XStatic-Angular") /\
    kw_get "summary" kw
      = Some (VStr "Angular 1.4.10 (XStatic packaging standard)") /\
    kw_get "description" kw = Some (VStr s) /\
    kw_get "maintainer" kw = Some (VStr "Rob Cresswell") /\
    kw_get "maintainer_email" kw
      = Some (VStr "robert.cresswell@outlook.com") /\
    kw_get "use_scm_version" kw = Some (VBool true) /\
    kw_get "version" kw = None /\
    kw_get "setup_requires" kw = Some (VList ["setuptools_scm"; "wheel"]) /\
    kw_get "packages" kw = Some (VList (find_packages (cwd w))) /\
    kw_get "include_package_data" kw = Some (VBool true).
Proof.
  intros D. apply delegated_inv in D as [s [R ->]].
  exists s. repeat split. exact R.
Qed.

Lemma record_is_fully_populated_witness :
  exists s,
    readable_with utf8_decode sample_world s /\
    kw_get "packages" (setup_keywords s (find_packages (cwd sample_world)))
      = Some (VList ["xstatic"; "xstatic.pkg"; "xstatic.pkg.angular"]).
Proof.
  destruct (record_is_fully_populated utf8_decode accept_all sample_world
              (setup_keywords sample_readme
                 (find_packages (cwd sample_world)))) as [s [R H]].
  - apply delegated_readable. readable.
  - exists s. split; [exact R |]. reflexivity.
Defined.

(** ** Failures inside the packaging tool *)

(** C3, as stated, fails: with no resolvable version and no description
    file the build ends with the file-not-found error of the read, which
    comes first; the tool and its version resolution are never
    reached. *)
Lemma version_error_counterexample :
  scm_version undescribed_untagged_world = None /\
  script utf8_decode (packaging_tool version_stamp)
    undescribed_untagged_world
    = ([EvOpen "README.txt"], inl (FileNotFoundError "README.txt")) /\
  result (script utf8_decode (packaging_tool version_stamp)
            undescribed_untagged_world)
    <> inl VersionResolutionError.
Proof.
  split; [reflexivity |]. split; [reflexivity | discriminate].
Qed.

(** C3, amended.  When the description file is readable and source
    control resolves no version, the script raises nothing itself and
    enters the packaging tool with a record that asks for the version
    from source control and gives none of its own; the build fails
    there with the version-resolution error, whatever the rest of the
    tool does and whatever else the working directory holds. *)
Theorem unresolved_version_fails {Artifact : Type}
    (decode : codec)
    (build_distribution : World -> string -> kwargs -> exn + Artifact)
    (w : World) (s : string) :
  readable_with decode w s ->
  scm_version w = None ->
  let kw := setup_keywords s (find_packages (cwd w)) in
  kw_get "use_scm_version" kw = Some (VBool true) /\
  kw_get "version" kw = None /\
  script decode (packaging_tool build_distribution) w =
    ([EvOpen readme; EvRead readme; EvFindPackages; EvSetup kw],
     inl VersionResolutionError).
Proof.
  intros R V kw. split; [reflexivity |]. split; [reflexivity |].
  rewrite (run_readable decode _ w s R). fold kw. f_equal.
  unfold packaging_tool, resolve_version. simpl. now rewrite V.
Qed.

Lemma unresolved_version_fails_witness :
  result (script utf8_decode (packaging_tool version_stamp) untagged_world)
    = inl VersionResolutionError.
Proof.
  destruct (unresolved_version_fails utf8_decode version_stamp
              untagged_world sample_readme) as [_ [_ H]].
  - readable.
  - reflexivity.
  - rewrite H. reflexivity.
Defined.

(** C8, as stated, fails: in an empty working directory discovery finds
    no sub-package, and the build ends with the file-not-found error of
    the read, not with a discovery error. *)
Lemma discovery_error_counterexample :
  find_packages (cwd empty_world) = [] /\
  script utf8_decode (packaging_tool version_stamp) empty_world
    = ([EvOpen "README.txt"], inl (FileNotFoundError "README.txt")) /\
  result (script utf8_decode (packaging_tool version_stamp) empty_world)
    <> inl DiscoveryError.
Proof.
  split; [reflexivity |]. split; [reflexivity | discriminate].
Qed.

(** C8, amended.  When the description file is readable, the version is
    resolved and discovery finds no sub-package, the script raises
    nothing itself: it hands the empty list to the packaging tool,
    whichever tool that is, and the build ends as the tool ends; with
    the tool as the specification describes it, it fails inside the
    tool with the discovery error. *)
Theorem no_packages_fails_in_tool {Artifact Artifact' : Type}
    (decode : codec)
    (setup : World -> kwargs -> exn + Artifact)
    (build_distribution : World -> string -> kwargs -> exn + Artifact')
    (w : World) (s v : string) :
  readable_with decode w s ->
  scm_version w = Some v ->
  find_packages (cwd w) = [] ->
  let kw := setup_keywords s [] in
  kw_get "packages" kw = Some (VList []) /\
  script decode setup w =
    ([EvOpen readme; EvRead readme; EvFindPackages; EvSetup kw],
     setup w kw) /\
  script decode (packaging_tool build_distribution) w =
    ([EvOpen readme; EvRead readme; EvFindPackages; EvSetup kw],
     inl DiscoveryError).
Proof.
  intros R V P kw. split; [reflexivity |].
  rewrite !(run_readable decode _ w s R), P. fold kw.
  split; [reflexivity |]. f_equal.
  unfold packaging_tool, resolve_version. simpl. now rewrite V.
Qed.

Lemma no_packages_fails_in_tool_witness :
  result (script utf8_decode (packaging_tool version_stamp)
            packageless_world)
    = inl DiscoveryError.
Proof.
  destruct (no_packages_fails_in_tool utf8_decode accept_all version_stamp
              packageless_world "XStatic-Angular" "1.4.10.1")
    as [_ [_ H]].
  - readable.
  - reflexivity.
  - reflexivity.
  - rewrite H. reflexivity.
Defined.

(** ** Package discovery *)

Lemma walk_dir (prefix : string) (es : listing) :
  walk prefix (Dir es) = level prefix es ++ below prefix es.
Proof.
  simpl. f_equal.
  induction es as [| [name d] rest IH]; simpl; [reflexivity |].
  now rewrite IH.
Qed.

Lemma find_packages_unfold (es : listing) :
  find_packages es = level "" es ++ below "" es.
Proof. apply walk_dir. Qed.

(** What discovery reads of a tree does not depend on the order of the
    listings: whether a node is a file, whether it looks like a package,
    and, up to order, the packages found in it. *)
Lemma same_tree_walk :
  (forall c c', same_tree c c' ->
     is_file c = is_file c' /\
     looks_like_package c = looks_like_package c' /\
     forall prefix, Permutation (walk prefix c) (walk prefix c')) /\
  (forall es es', same_listing es es' ->
     has_init es = has_init es' /\
     forall prefix,
       Permutation (level prefix es) (level prefix es') /\
       Permutation (below prefix es) (below prefix es')).
Proof.
  apply same_tree_listing_ind.
  - intros r s. repeat split. reflexivity.
  - intros es es' _ [Hi Hp]. repeat split; [exact Hi |].
    intros prefix. rewrite !walk_dir.
    destruct (Hp prefix) as [Hl Hb]. now apply Permutation_app.
  - repeat split; reflexivity.
  - intros n c c' es es' _ [Hf [Hk Hw]] _ [Hi Hp]. split.
    + unfold has_init in *. simpl. now rewrite Hf, Hi.
    + intros prefix. destruct (Hp prefix) as [Hl Hb].
      simpl. unfold is_package. rewrite <- Hk.
      destruct (negb (has_dot n) && looks_like_package c); split;
        auto using Permutation_app, perm_skip.
  - intros [n1 c1] [n2 c2] es. split.
    + unfold has_init. simpl. rewrite !orb_assoc. f_equal.
      apply orb_comm.
    + intros prefix. simpl. split.
      * destruct (is_package n1 c1), (is_package n2 c2);
          auto using perm_swap.
      * rewrite !app_assoc. apply Permutation_app_tail.
        apply Permutation_app_comm.
  - intros es1 es2 es3 _ [Hi Hp] _ [Hi' Hp']. split; [congruence |].
    intros prefix. destruct (Hp prefix), (Hp' prefix).
    split; eapply perm_trans; eassumption.
Qed.

Lemma find_packages_permutation (es es' : listing) :
  same_listing es es' ->
  Permutation (find_packages es) (find_packages es').
Proof.
  intros H. unfold find_packages.
  apply (proj1 same_tree_walk (Dir es) (Dir es')). now constructor.
Qed.

Lemma same_listing_refl (es : listing) : same_listing es es.
Proof.
  pose proof (same_tree_refl (Dir es)) as H. now inversion H.
Qed.

(** C6.  Two runs of discovery against the same tree find the same set
    of sub-package paths: a path is found in one run exactly when it is
    found in the other, even when the operating system lists the
    directories of the unchanged tree in another order ([same_listing]
    is reflexive, so the identical listing is a case of it). *)
Theorem discovery_is_deterministic (es es' : listing) :
  same_listing es es' ->
  forall p, In p (find_packages es) <-> In p (find_packages es').
Proof.
  intros H p. apply find_packages_permutation in H.
  split; apply Permutation_in; [exact H | now apply Permutation_sym].
Qed.

Lemma discovery_is_deterministic_witness :
  In "xstatic.pkg.angular" (find_packages sample_cwd) <->
  In "xstatic.pkg.angular" (find_packages sample_cwd_reordered).
Proof.
  apply (discovery_is_deterministic sample_cwd sample_cwd_reordered).
  unfold sample_cwd, sample_cwd_reordered.
  eapply same_trans; [apply same_swap |].
  do 2 (apply same_skip; [apply same_tree_refl |]).
  apply same_skip; [| apply same_nil].
  apply same_dir.
  eapply same_trans; [apply same_swap |].
  apply same_skip; [| apply same_listing_refl].
  apply same_dir, same_swap.
Defined.

(** ** What a run is made of *)

(** X1.  Once the packaging tool is entered, its outcome is the outcome
    of the build: the script catches nothing, replaces nothing and adds
    no failure of its own after the call. *)
Theorem tool_outcome_passes_through {Artifact : Type}
    (decode : codec) (setup : World -> kwargs -> exn + Artifact)
    (w : World) (kw : kwargs) :
  delegated (script decode setup w) kw ->
  result (script decode setup w) = setup w kw.
Proof.
  intros D. apply delegated_inv in D as [s [R ->]].
  now rewrite (run_readable decode setup w s R).
Qed.

Lemma tool_outcome_passes_through_witness :
  result (script utf8_decode disk_full sample_world)
    = inl (ToolError "No space left on device").
Proof.
  rewrite (tool_outcome_passes_through utf8_decode disk_full sample_world
             (setup_keywords sample_readme (find_packages sample_cwd))).
  - reflexivity.
  - apply delegated_readable. readable.
Defined.

(** X2.  A run, past the import, in which the packaging tool is never
    entered is a run whose read of the description failed, in the open
    or in the read: the build ended with the error of that read, the
    run has the events of the read and no other, and discovery was not
    run. *)
Theorem never_delegated_is_failed_read {Artifact : Type}
    (decode : codec) (setup : World -> kwargs -> exn + Artifact)
    (w : World) :
  (forall kw, ~ delegated (script decode setup w) kw) ->
  exists e,
    result (read_description decode w) = inl e /\
    script decode setup w = (trace (read_description decode w), inl e) /\
    ~ In EvFindPackages (trace (script decode setup w)).
Proof.
  intros H.
  destruct (readable_or_not decode w) as [[s R] | N].
  - elim (H _ (delegated_readable decode setup w s R)).
  - destruct (run_unreadable decode setup w N) as [e [Res [Run T]]].
    exists e. split; [exact Res |]. split; [exact Run |].
    rewrite Run. simpl.
    destruct T as [T | T]; rewrite T; simpl; intuition discriminate.
Qed.

Lemma never_delegated_is_failed_read_witness :
  exists e,
    result (read_description utf8_decode undecodable_world) = inl e /\
    script utf8_decode accept_all undecodable_world
      = (trace (read_description utf8_decode undecodable_world), inl e).
Proof.
  destruct (never_delegated_is_failed_read utf8_decode accept_all
              undecodable_world) as [e [H1 [H2 _]]].
  - intros kw [D | [D | []]]; discriminate.
  - exists e. split; [exact H1 | exact H2].
Defined.

(** X3.  Every run, past the import, has one of three shapes: the failed
    open alone; the open and the failed read; or the open, the read, one
    discovery and one entry of the packaging tool, in this order.  So
    the file is opened once, discovery is never run after a failed
    read, and the tool is never entered twice. *)
Theorem run_has_three_shapes {Artifact : Type}
    (decode : codec) (setup : World -> kwargs -> exn + Artifact)
    (w : World) :
  (exists e, script decode setup w = ([EvOpen readme], inl e)) \/
  (exists e, script decode setup w
             = ([EvOpen readme; EvRead readme], inl e)) \/
  (exists kw,
     script decode setup w
       = ([EvOpen readme; EvRead readme; EvFindPackages; EvSetup kw],
          setup w kw)).
Proof.
  destruct (readable_or_not decode w) as [[s R] | N].
  - right. right. eexists. apply (run_readable decode setup w s R).
  - destruct (run_unreadable decode setup w N) as [e [_ [Run T]]].
    destruct T as [T | T]; rewrite T in Run; [left | right; left];
      now exists e.
Qed.

(** X4.  The build delivers an artifact exactly when [README.txt] is a
    readable file and the packaging tool delivers that artifact on the
    record built from its text and from the discovered packages. *)
Theorem build_succeeds_iff {Artifact : Type}
    (decode : codec) (setup : World -> kwargs -> exn + Artifact)
    (w : World) (a : Artifact) :
  result (script decode setup w) = inr a <->
  exists s,
    readable_with decode w s /\
    setup w (setup_keywords s (find_packages (cwd w))) = inr a.
Proof.
  split.
  - intros H. destruct (readable_or_not decode w) as [[s R] | N].
    + exists s. split; [exact R |].
      now rewrite (run_readable decode setup w s R) in H.
    + destruct (run_unreadable decode setup w N) as [e [_ [Run _]]].
      rewrite Run in H. discriminate.
  - intros [s [R H]]. now rewrite (run_readable decode setup w s R).
Qed.

(** X5.  The record depends on the environment only through the text
    that the read of [README.txt] delivers and the discovered packages:
    two builds that agree on these are entered with the same record,
    whatever their tools, their locales, the bytes of their description
    files, the versions source control resolves and the rest of their
    working directories. *)
Theorem record_ignores_version_and_tool {Artifact1 Artifact2 : Type}
    (decode1 decode2 : codec)
    (setup1 : World -> kwargs -> exn + Artifact1)
    (setup2 : World -> kwargs -> exn + Artifact2)
    (w1 w2 : World) (s : string) (kw1 kw2 : kwargs) :
  readable_with decode1 w1 s ->
  readable_with decode2 w2 s ->
  find_packages (cwd w1) = find_packages (cwd w2) ->
  delegated (script decode1 setup1 w1) kw1 ->
  delegated (script decode2 setup2 w2) kw2 ->
  kw1 = kw2.
Proof.
  intros S1 S2 P D1 D2.
  apply delegated_inv in D1 as [s1 [R1 ->]].
  apply delegated_inv in D2 as [s2 [R2 ->]].
  rewrite P, (readable_with_unique decode1 w1 s1 s R1 S1),
    (readable_with_unique decode2 w2 s2 s R2 S2).
  reflexivity.
Qed.

Lemma record_ignores_version_and_tool_witness :
  setup_keywords lf_readme (find_packages (cwd crlf_world))
  = setup_keywords lf_readme (find_packages (cwd lf_world)).
Proof.
  apply (record_ignores_version_and_tool utf8_decode ascii_decode
           (packaging_tool version_stamp) disk_full
           crlf_world lf_world lf_readme).
  - readable.
  - readable.
  - reflexivity.
  - apply delegated_readable. readable.
  - apply delegated_readable. readable.
Defined.

(** ** Listing order *)

Lemma same_tree_trans (a b c : node) :
  same_tree a b -> same_tree b c -> same_tree a c.
Proof.
  intros H1 H2. inversion H1; subst; inversion H2; subst.
  - constructor.
  - constructor. eapply same_trans; eassumption.
Qed.

Lemma same_entry_refl (a : option node) : same_entry a a.
Proof. destruct a; simpl; [apply same_tree_refl | exact I]. Qed.

Lemma same_entry_trans (a b c : option node) :
  same_entry a b -> same_entry b c -> same_entry a c.
Proof.
  destruct a, b, c; simpl; try tauto. apply same_tree_trans.
Qed.

Lemma same_listing_names (es es' : listing) :
  same_listing es es' -> Permutation (map fst es) (map fst es').
Proof.
  induction 1; simpl.
  - constructor.
  - now constructor.
  - constructor.
  - eapply perm_trans; eassumption.
Qed.

(** In a directory that lists each name once, what a name denotes does
    not depend on the order of the listing. *)
Lemma lookup_same_listing (es es' : listing) :
  same_listing es es' ->
  unique_names es ->
  forall name, same_entry (lookup name es) (lookup name es').
Proof.
  unfold unique_names. induction 1 as [| n c c' es es' Hc Hs IH
                                        | [n1 c1] [n2 c2] es
                                        | es1 es2 es3 H12 IH12 H23 IH23];
    intros U name; simpl.
  - exact I.
  - destruct (String.eqb n name); [exact Hc |].
    apply IH. now inversion U.
  - destruct (String.eqb n1 name) eqn:E1, (String.eqb n2 name) eqn:E2;
      try apply same_entry_refl; try apply same_tree_refl.
    apply String.eqb_eq in E1, E2. subst n1 n2.
    simpl in U. inversion U as [| ? ? Hin _]. elim Hin. now left.
  - eapply same_entry_trans; [now apply IH12 |].
    apply IH23.
    eapply Permutation_NoDup; [apply same_listing_names, H12 | exact U].
Qed.

Lemma py_open_same_entry (es es' : listing) (path : string) :
  same_entry (lookup path es) (lookup path es') ->
  py_open es path = py_open es' path.
Proof.
  unfold py_open.
  destruct (lookup path es) as [c |], (lookup path es') as [c' |]; simpl;
    try tauto.
  intros H. inversion H; subst; reflexivity.
Qed.

(** X6.  Reading the description does not depend on the order in which
    the working directory is listed: for two listings of the same tree,
    each name listed once, the read performs the same events and ends
    with the same text or the same error. *)
Theorem read_ignores_listing_order (decode : codec) (w w' : World) :
  same_listing (cwd w) (cwd w') ->
  unique_names (cwd w) ->
  read_description decode w = read_description decode w'.
Proof.
  intros S U. unfold read_description.
  now rewrite (py_open_same_entry (cwd w) (cwd w') readme
                 (lookup_same_listing _ _ S U readme)).
Qed.

Lemma sample_listings_same : same_listing sample_cwd sample_cwd_reordered.
Proof.
  unfold sample_cwd, sample_cwd_reordered.
  eapply same_trans; [apply same_swap |].
  do 2 (apply same_skip; [apply same_tree_refl |]).
  apply same_skip; [| apply same_nil].
  apply same_dir.
  eapply same_trans; [apply same_swap |].
  apply same_skip; [| apply same_listing_refl].
  apply same_dir, same_swap.
Qed.

Lemma sample_names_unique : unique_names sample_cwd.
Proof.
  unfold unique_names, sample_cwd. simpl.
  repeat constructor; simpl; intuition discriminate.
Qed.

Lemma read_ignores_listing_order_witness :
  read_description utf8_decode sample_world
  = read_description utf8_decode reordered_untagged_world.
Proof.
  apply (read_ignores_listing_order utf8_decode sample_world
           reordered_untagged_world).
  - exact sample_listings_same.
  - exact sample_names_unique.
Defined.

(** X7.  The build does not depend on the listing order either: for two
    listings of the same tree, each name listed once, a run that enters
    the packaging tool in one is matched by a run that enters it in the
    other, with records that carry the same description and differ at
    most in the order of the discovered packages. *)
Theorem record_ignores_listing_order {Artifact Artifact' : Type}
    (decode : codec)
    (setup : World -> kwargs -> exn + Artifact)
    (setup' : World -> kwargs -> exn + Artifact')
    (w w' : World) (kw : kwargs) :
  same_listing (cwd w) (cwd w') ->
  unique_names (cwd w) ->
  delegated (script decode setup w) kw ->
  exists s pk pk',
    kw = setup_keywords s pk /\
    delegated (script decode setup' w') (setup_keywords s pk') /\
    Permutation pk pk'.
Proof.
  intros S U D. apply delegated_inv in D as [s [R ->]].
  exists s, (find_packages (cwd w)), (find_packages (cwd w')).
  split; [reflexivity |]. split.
  - apply delegated_readable.
    pose proof (lookup_same_listing _ _ S U readme) as E.
    destruct R as [c [L R]]. rewrite L in E.
    destruct (lookup readme (cwd w')) as [c' |] eqn:L'; simpl in E;
      [| tauto].
    exists c'. split; [exact L' |].
    destruct c as [[|] b | es]; simpl in R; try discriminate.
    now inversion E; subst.
  - now apply find_packages_permutation.
Qed.

Lemma record_ignores_listing_order_witness :
  exists s pk pk',
    setup_keywords sample_readme (find_packages sample_cwd)
      = setup_keywords s pk /\
    delegated (script utf8_decode disk_full reordered_untagged_world)
      (setup_keywords s pk') /\
    Permutation pk pk'.
Proof.
  apply (record_ignores_listing_order utf8_decode accept_all disk_full
           sample_world reordered_untagged_world).
  - exact sample_listings_same.
  - exact sample_names_unique.
  - apply delegated_readable. readable.
Defined.
